(** * Nexus pipeline (ex2/nexus_pipeline.py): stages, adapters, manager

    A shallow embedding of the three processing stages, the three
    format-guarded adapters and the chaining manager, together with the
    properties the design document states about them.

    Python objects are modelled by the inductive [value]; a [dict] is a
    finite map with string keys (the only keys the program uses).  A
    [str] is kept as its UTF-8 byte sequence: every separator the program
    looks for is ASCII, so searching and splitting on bytes agrees with
    searching and splitting on code points.

    Three built-ins of the interpreter are left as parameters of the
    development, because the program only passes values through them:
    [repr] of floats and containers, [sum], and true division [/].

    Two smaller components are embedded on the same values:
    [LogProcessor] of ex0/stream_processor.py and the statistics of
    [EventStream] of ex1/data_stream.py. *)

From Stdlib Require Import ZArith Ascii Floats.PrimFloat Uint63.
From stdpp Require Import base gmap strings list pretty.

Set Warnings "-register-all".

Local Open Scope Z_scope.

(** ** Python values *)

Module Py.

Inductive value : Type :=
| VNone
| VBool (b : bool)
| VInt (z : Z)
| VFloat (f : float)
| VStr (s : string)
| VList (l : list value)
| VDict (d : gmap string value).

(** The exception classes that can escape the modelled code. *)
Inductive exn : Type :=
| ValueError
| KeyError
| TypeError
| AttributeError
| IndexError
| ZeroDivisionError
| OverflowError.

(** Outcome of evaluating an expression: a value or a raised exception. *)
Inductive result (A : Type) : Type :=
| Ok (a : A)
| Raise (e : exn).

Arguments Ok {A} a.
Arguments Raise {A} e.

Definition result_bind {A B : Type} (r : result A) (k : A → result B) : result B :=
  match r with
  | Ok a => k a
  | Raise e => Raise e
  end.

(** [[f(x) for x in l]] where [f] may raise: stops at the first exception. *)
Fixpoint comprehension {A B : Type} (f : A → result B) (l : list A) : result (list B) :=
  match l with
  | [] => Ok []
  | x :: rest =>
      result_bind (f x) (λ y,
      result_bind (comprehension f rest) (λ ys, Ok (y :: ys)))
  end.

(** *** isinstance *)

Definition is_dict (v : value) : bool :=
  match v with VDict _ => true | _ => false end.

Definition is_list (v : value) : bool :=
  match v with VList _ => true | _ => false end.

Definition is_str (v : value) : bool :=
  match v with VStr _ => true | _ => false end.

(** *** Characters used by the program *)

Definition comma : ascii := ","%char.
Definition colon : ascii := ":"%char.
Definition newline : ascii := "010"%char.
Definition lbrace : ascii := "{"%char.
Definition rbrace : ascii := "}"%char.
Definition dquote : string := String "034"%char EmptyString.
(** U+00B0 DEGREE SIGN in UTF-8. *)
Definition degree : string := String "194"%char (String "176"%char EmptyString).

(** *** str operations *)

(** [c in s] for a one-character [c]. *)
Fixpoint str_contains (c : ascii) (s : string) : bool :=
  match s with
  | EmptyString => false
  | String a rest => if Ascii.eqb a c then true else str_contains c rest
  end.

(** Number of occurrences of [c] in [s]. *)
Fixpoint str_count (c : ascii) (s : string) : nat :=
  match s with
  | EmptyString => 0%nat
  | String a rest =>
      if Ascii.eqb a c then S (str_count c rest) else str_count c rest
  end.

(** [s.split(sep)] for a one-character separator. *)
Fixpoint str_split (sep : ascii) (s : string) : list string :=
  match s with
  | EmptyString => [EmptyString]
  | String a rest =>
      if Ascii.eqb a sep then EmptyString :: str_split sep rest
      else match str_split sep rest with
           | [] => [String a EmptyString]
           | field :: fields => String a field :: fields
           end
  end.

(** [s[0]] and [s[-1]] of a non-empty [s], as bytes. *)
Definition str_head (s : string) : option ascii :=
  match s with
  | EmptyString => None
  | String a _ => Some a
  end.

Fixpoint str_last (s : string) : option ascii :=
  match s with
  | EmptyString => None
  | String a EmptyString => Some a
  | String _ rest => str_last rest
  end.

(** A UTF-8 continuation byte, 10xxxxxx. *)
Definition is_continuation (a : ascii) : bool :=
  let n := nat_of_ascii a in (128 <=? n)%nat && (n <? 192)%nat.

(** The code points of [s], each as a one-character str: what iterating
    over a str yields. *)
Fixpoint str_chars (s : string) : list string :=
  match s with
  | EmptyString => []
  | String a rest =>
      match rest with
      | String b _ =>
          if is_continuation b then
            match str_chars rest with
            | [] => [String a EmptyString]
            | ch :: chs => String a ch :: chs
            end
          else String a EmptyString :: str_chars rest
      | EmptyString => [String a EmptyString]
      end
  end.

(** *** Built-ins on values *)

(** [v == s] for a str literal [s]. *)
Definition eq_str (v : value) (s : string) : bool :=
  match v with
  | VStr t => String.eqb t s
  | _ => false
  end.

(** [v[k]] for a str key [k]. *)
Definition subscript (v : value) (k : string) : result value :=
  match v with
  | VDict d =>
      match d !! k with
      | Some x => Ok x
      | None => Raise KeyError
      end
  | _ => Raise TypeError
  end.

(** [v[0]]. No dict of the model has the key [0]. *)
Definition subscript0 (v : value) : result value :=
  match v with
  | VList l =>
      match l with
      | x :: _ => Ok x
      | [] => Raise IndexError
      end
  | VStr s =>
      match str_chars s with
      | ch :: _ => Ok (VStr ch)
      | [] => Raise IndexError
      end
  | VDict _ => Raise KeyError
  | _ => Raise TypeError
  end.

(** [len(v)]. *)
Definition len (v : value) : result value :=
  match v with
  | VList l => Ok (VInt (Z.of_nat (length l)))
  | VDict d => Ok (VInt (Z.of_nat (size d)))
  | VStr s => Ok (VInt (Z.of_nat (length (str_chars s))))
  | _ => Raise TypeError
  end.

(** [iter(v)], run to exhaustion.  A dict yields its keys; their order is
    not tracked by the model. *)
Definition iter (v : value) : result (list value) :=
  match v with
  | VList l => Ok l
  | VStr s => Ok (VStr <$> str_chars s)
  | VDict d => Ok ((λ kv, VStr kv.1) <$> map_to_list d)
  | _ => Raise TypeError
  end.

(** [v.split(sep)]: only a str has the method. *)
Definition split (v : value) (sep : ascii) : result value :=
  match v with
  | VStr s => Ok (VList (VStr <$> str_split sep s))
  | _ => Raise AttributeError
  end.

(** [v + 1]. *)
Definition add1 (v : value) : result value :=
  match v with
  | VInt z => Ok (VInt (z + 1))
  | VBool b => Ok (VInt (Z.b2z b + 1))
  | VFloat f => Ok (VFloat (PrimFloat.add f 1%float))
  | _ => Raise TypeError
  end.

End Py.

Import Py.

(** ** The interpreter's formatting and arithmetic *)

(** The built-ins the program calls but does not define.  [repr] is only
    consulted for floats, lists and dicts; [sum] and [truediv] are only
    reached from the stream branch of [OutputStage]. *)
Record runtime : Type := Runtime {
  py_repr : value → string;
  py_sum : list value → result value;
  py_truediv : value → value → result value
}.

(** [str(v)], which is also what an f-string field [{v}] formats to. *)
Definition py_str (rt : runtime) (v : value) : string :=
  match v with
  | VStr s => s
  | VInt z => pretty z
  | VBool true => "True"
  | VBool false => "False"
  | VNone => "None"
  | _ => py_repr rt v
  end.

(** A small runtime on which the model can be run.  It is exact on
    integers of magnitude below 2^53 and declines everything else; the
    objects whose [repr] is not modelled print as a fixed tag. *)
Definition small (z : Z) : bool := Z.abs z <? 2 ^ 53.

Definition float_of_small (z : Z) : float :=
  if z <? 0 then PrimFloat.opp (PrimFloat.of_uint63 (Uint63.of_Z (- z)))
  else PrimFloat.of_uint63 (Uint63.of_Z z).

Definition small_sum (l : list value) : result value :=
  result_bind
    (comprehension (λ v, match v with VInt z => Ok z | _ => Raise TypeError end) l)
    (λ zs, Ok (VInt (foldr Z.add 0 zs))).

Definition small_truediv (a b : value) : result value :=
  match a, b with
  | VInt x, VInt y =>
      if y =? 0 then Raise ZeroDivisionError
      else if small x && small y
           then Ok (VFloat (PrimFloat.div (float_of_small x) (float_of_small y)))
           else Raise OverflowError
  | _, _ => Raise TypeError
  end.

Definition small_runtime : runtime :=
  {| py_repr := λ _, "<object>";
     py_sum := small_sum;
     py_truediv := small_truediv |}.

(** ** Stages *)

(** What a stage's [process] can touch: the object bound to its argument
    [data], which it may mutate in place, and standard output. *)
Record world : Type := World {
  obj : value;
  stdout : list string
}.

(** A stage body: a computation over the world that returns or raises. *)
Definition M (A : Type) : Type := world → world * result A.

Definition ret {A : Type} (a : A) : M A := λ w, (w, Ok a).

Definition bind {A B : Type} (m : M A) (k : A → M B) : M B :=
  λ w, match m w with
       | (w', Ok a) => k a w'
       | (w', Raise e) => (w', Raise e)
       end.

Definition raise {A : Type} (e : exn) : M A := λ w, (w, Raise e).

Definition lift {A : Type} (r : result A) : M A := λ w, (w, r).

Declare Scope stage_scope.
Delimit Scope stage_scope with stage.
Notation "x <- m ; k" := (bind m (λ x, k))
  (at level 100, m at next level, right associativity) : stage_scope.
Notation "m ;; k" := (bind m (λ _, k))
  (at level 100, right associativity) : stage_scope.
Local Open Scope stage_scope.

(** [print(s, end="")] and [print(s)]. *)
Definition write (s : string) : M unit :=
  λ w, ({| obj := obj w; stdout := stdout w ++ [s] |}, Ok tt).

Definition print (s : string) : M unit := write (s +:+ String newline EmptyString).

(** The argument [data] itself. *)
Definition data : M value := λ w, (w, Ok (obj w)).

(** [data[k]]. *)
Definition data_get (k : string) : M value := λ w, (w, subscript (obj w) k).

(** [data[k] = v]. *)
Definition data_set (k : string) (v : value) : M unit :=
  λ w, match obj w with
       | VDict d => ({| obj := VDict (<[k := v]> d); stdout := stdout w |}, Ok tt)
       | _ => (w, Raise TypeError)
       end.

(** *** InputStage *)

(** [data != "" and data[0] == '{' and data[-1] == '}'], reached only
    with a str. *)
Definition brace_delimited (s : string) : bool :=
  negb (String.eqb s EmptyString)
  && bool_decide (str_head s = Some lbrace)
  && bool_decide (str_last s = Some rbrace).

Definition braced (v : value) : bool :=
  match v with
  | VStr s => brace_delimited s
  | _ => false
  end.

(** [',' in data], reached only with a str. *)
Definition has_comma (v : value) : bool :=
  match v with
  | VStr s => str_contains comma s
  | _ => false
  end.

Definition InputStage_process (rt : runtime) : M value :=
  write "Input: ";;
  raw <- data;
  let out : gmap string value := {[ "raw" := raw ]} in
  if is_dict raw then
    let out := <[ "payload" := raw ]> out in
    let out := <[ "type" := VStr "json" ]> out in
    print (py_str rt raw);;
    ret (VDict out)
  else if is_list raw then
    let out := <[ "payload" := raw ]> out in
    let out := <[ "type" := VStr "stream" ]> out in
    print "Real-time sensor stream";;
    ret (VDict out)
  else if negb (is_str raw) then
    let out := <[ "type" := VStr "invalid" ]> out in
    ret (VDict out)
  else if braced raw then
    let out := <[ "type" := VStr "json" ]> out in
    let out := <[ "payload" := raw ]> out in
    print (py_str rt raw);;
    ret (VDict out)
  else if is_str raw && has_comma raw then
    let out := <[ "type" := VStr "csv" ]> out in
    let out := <[ "payload" := raw ]> out in
    print (dquote +:+ py_str rt raw +:+ dquote);;
    ret (VDict out)
  else
    let out := <[ "type" := VStr "invalid" ]> out in
    ret (VDict out).

(** *** TransformStage *)

(** The loop [for i in data["payload"]: if i == ':': data["size"] += 1],
    over the items [cs] the payload yields. *)
Fixpoint count_colons (cs : list value) : M unit :=
  match cs with
  | [] => ret tt
  | i :: rest =>
      (if eq_str i (String colon EmptyString) then
         size <- data_get "size";
         size' <- lift (add1 size);
         data_set "size" size'
       else ret tt);;
      count_colons rest
  end.

Definition TransformStage_process : M value :=
  write "Transform: ";;
  type <- data_get "type";
  if eq_str type "invalid" then raise ValueError
  else
  type <- data_get "type";
  if eq_str type "csv" then
    print "Parsed and structured data";;
    payload <- data_get "payload";
    lines <- lift (split payload newline);
    data_set "payload" lines;;
    payload <- data_get "payload";
    rows <- lift (result_bind (iter payload) (comprehension (λ row, split row comma)));
    data_set "payload" (VList rows);;
    payload <- data_get "payload";
    n <- lift (len payload);
    data_set "size" n;;
    data
  else
  type <- data_get "type";
  if eq_str type "json" then
    print "Enriched with metadata and validation";;
    data_set "size" (VInt 0);;
    payload <- data_get "payload";
    (if is_str payload then
       payload <- data_get "payload";
       cs <- lift (iter payload);
       count_colons cs
     else
       payload <- data_get "payload";
       n <- lift (len payload);
       data_set "size" n);;
    data
  else
  type <- data_get "type";
  if eq_str type "stream" then
    print "Aggregated and filtered";;
    payload <- data_get "payload";
    n <- lift (len payload);
    data_set "size" n;;
    data
  else data.

(** *** OutputStage *)

Definition OutputStage_process (rt : runtime) : M value :=
  type <- data_get "type";
  if eq_str type "invalid" then ret (VStr "Invalid type")
  else
  type <- data_get "type";
  if eq_str type "json" then
    payload <- data_get "payload";
    if is_dict payload then
      payload <- data_get "payload";
      reading <- lift (subscript payload "value");
      payload <- data_get "payload";
      scale <- lift (subscript payload "unit");
      ret (VStr ("Processed temperature reading: " +:+ py_str rt reading +:+ degree
                 +:+ py_str rt scale +:+ "  (Normal range)"))
    else
      size <- data_get "size";
      ret (VStr ("Processed temperature reading: " +:+ py_str rt size
                 +:+ " reading processed"))
  else
  type <- data_get "type";
  if eq_str type "csv" then
    size <- data_get "size";
    ret (VStr ("User activity logged: " +:+ py_str rt size +:+ " actions processed"))
  else
  type <- data_get "type";
  if eq_str type "stream" then
    payload <- data_get "payload";
    temps <- lift (result_bind (iter payload) (comprehension (λ i, subscript i "value")));
    match temps with
    | [] =>
        size <- data_get "size";
        ret (VStr ("Stream summary: " +:+ py_str rt size +:+ " readings"))
    | _ :: _ =>
        size <- data_get "size";
        total <- lift (py_sum rt temps);
        divisor <- data_get "size";
        avg <- lift (py_truediv rt total divisor);
        payload <- data_get "payload";
        first <- lift (subscript0 payload);
        scale <- lift (subscript first "unit");
        ret (VStr ("Stream summary: " +:+ py_str rt size +:+ " readings, avg: "
                   +:+ py_str rt avg +:+ degree +:+ py_str rt scale))
    end
  else ret VNone.

(** ** Pipelines *)

(** The three stage classes of the program. *)
Inductive stage : Type :=
| InputStage
| TransformStage
| OutputStage.

Definition stage_process (rt : runtime) (s : stage) : M value :=
  match s with
  | InputStage => InputStage_process rt
  | TransformStage => TransformStage_process
  | OutputStage => OutputStage_process rt
  end.

(** [s.process(data)]: the stage runs on the object [d]; the caller keeps
    what it returns and what it printed. *)
Definition call (rt : runtime) (s : stage) (d : value) (out : list string)
  : list string * result value :=
  let '(w, r) := stage_process rt s {| obj := d; stdout := out |} in
  (stdout w, r).

(** [for s in self.stages: data = s.process(data)], then [return data].
    Nothing catches an exception raised by a stage. *)
Fixpoint run_stages (rt : runtime) (stages : list stage) (d : value)
    (out : list string) : list string * result value :=
  match stages with
  | [] => (out, Ok d)
  | s :: rest =>
      match call rt s d out with
      | (out', Ok d') => run_stages rt rest d' out'
      | (out', Raise e) => (out', Raise e)
      end
  end.

(** The loop [for i in data: if not isinstance(i, dict): return ...] of
    the stream adapter finds a non-dict element. *)
Fixpoint some_not_dict (l : list value) : bool :=
  match l with
  | [] => false
  | i :: rest => if negb (is_dict i) then true else some_not_dict rest
  end.

Definition items (v : value) : list value :=
  match v with
  | VList l => l
  | _ => []
  end.

Definition JSONAdapter_process (rt : runtime) (stages : list stage) (d : value)
    (out : list string) : list string * result value :=
  if negb (is_str d || is_dict d) then
    (out, Ok (VStr (py_str rt d +:+ " is not a JSON-like format")))
  else run_stages rt stages d out.

Definition CSVAdapter_process (rt : runtime) (stages : list stage) (d : value)
    (out : list string) : list string * result value :=
  if negb (is_str d) then
    (out, Ok (VStr (py_str rt d +:+ " is not a CSV-like format")))
  else if negb (has_comma d) then
    (out, Ok (VStr (py_str rt d +:+ " is not a CSV-like format")))
  else run_stages rt stages d out.

Definition StreamAdapter_process (rt : runtime) (stages : list stage) (d : value)
    (out : list string) : list string * result value :=
  if negb (is_list d) then
    (out, Ok (VStr (py_str rt d +:+ " is not a stream-like format")))
  else if some_not_dict (items d) then
    (out, Ok (VStr (py_str rt d +:+ " is not a stream-like format")))
  else run_stages rt stages d out.

(** The concrete subclasses of [ProcessingPipeline]. *)
Inductive adapter : Type :=
| JSONAdapter
| CSVAdapter
| StreamAdapter.

Record pipeline : Type := Pipeline {
  kind : adapter;
  pipeline_id : Z;
  stages : list stage
}.

Definition new_pipeline (k : adapter) (id : Z) : pipeline :=
  {| kind := k; pipeline_id := id; stages := [] |}.

Definition add_stage (s : stage) (p : pipeline) : pipeline :=
  {| kind := kind p; pipeline_id := pipeline_id p; stages := stages p ++ [s] |}.

(** Dynamic dispatch of [p.process(data)]. *)
Definition process (rt : runtime) (p : pipeline) (d : value) (out : list string)
  : list string * result value :=
  match kind p with
  | JSONAdapter => JSONAdapter_process rt (stages p) d out
  | CSVAdapter => CSVAdapter_process rt (stages p) d out
  | StreamAdapter => StreamAdapter_process rt (stages p) d out
  end.

(** ** NexusManager *)

Definition add_pipeline (p : pipeline) (pipelines : list pipeline) : list pipeline :=
  pipelines ++ [p].

(** [for i in self.pipelines: data = i.process(data)], then [return data]. *)
Fixpoint process_data (rt : runtime) (pipelines : list pipeline) (d : value)
    (out : list string) : list string * result value :=
  match pipelines with
  | [] => (out, Ok d)
  | p :: rest =>
      match process rt p d out with
      | (out', Ok d') => process_data rt rest d' out'
      | (out', Raise e) => (out', Raise e)
      end
  end.

(** ** The demonstration values of the program *)

Definition reading : value :=
  VDict (<[ "sensor" := VStr "temp" ]>
         (<[ "value" := VFloat 23.5%float ]>
          (<[ "unit" := VStr "C" ]> ∅))).

Definition pipeline_A : pipeline :=
  add_stage TransformStage (add_stage InputStage (new_pipeline JSONAdapter 3)).
Definition pipeline_B : pipeline :=
  add_stage TransformStage (new_pipeline JSONAdapter 4).
Definition pipeline_C : pipeline :=
  add_stage OutputStage (new_pipeline JSONAdapter 5).

Definition manager : list pipeline :=
  add_pipeline pipeline_C (add_pipeline pipeline_B (add_pipeline pipeline_A [])).

(** ** The design document's vocabulary

    The definitions below follow the wording of the design document, not
    the code; the theorems relate them to the code. *)

(** The four tags of an envelope and the strings that stand for them. *)
Inductive tag : Type :=
| Structured
| Delimited
| Stream
| Invalid.

Definition tag_name (t : tag) : string :=
  match t with
  | Structured => "json"
  | Delimited => "csv"
  | Stream => "stream"
  | Invalid => "invalid"
  end.

(** Classification rules 1 to 6, first match wins: the tag and, when
    there is one, the payload. *)
Definition classify (raw : value) : tag * option value :=
  match raw with
  | VDict _ => (Structured, Some raw)
  | VList _ => (Stream, Some raw)
  | VStr s =>
      if brace_delimited s then (Structured, Some raw)
      else if str_contains comma s then (Delimited, Some raw)
      else (Invalid, None)
  | _ => (Invalid, None)
  end.


(** The format guard of each pipeline variant. *)
Definition accepts (k : adapter) (d : value) : bool :=
  match k with
  | JSONAdapter => is_str d || is_dict d
  | CSVAdapter => is_str d && has_comma d
  | StreamAdapter =>
      match d with
      | VList l => forallb is_dict l
      | _ => false
      end
  end.

Definition format_name (k : adapter) : string :=
  match k with
  | JSONAdapter => "JSON-like"
  | CSVAdapter => "CSV-like"
  | StreamAdapter => "stream-like"
  end.

(** The descriptive rejection string. *)
Definition rejection (rt : runtime) (k : adapter) (d : value) : value :=
  VStr (py_str rt d +:+ " is not a " +:+ format_name k +:+ " format").

(** The rows of a delimited text: one per line, each the comma-split of
    its line. *)
Definition csv_rows (s : string) : list value :=
  (λ line, VList (VStr <$> str_split comma line)) <$> str_split newline s.

(** The field [type] of the argument object, as a stage reads it. *)
Definition type_of (w : world) : result value := subscript (obj w) "type".

(** A computation that leaves the field [type] of the argument object
    as it found it, whether it returns or raises. *)
Definition keeps_type {A : Type} (m : M A) : Prop :=
  ∀ w, type_of (m w).1 = type_of w.

(** A computation that touches neither the argument object nor standard
    output. *)
Definition read_only {A : Type} (m : M A) : Prop :=
  ∀ w, (m w).1 = w.

(** A computation that, when it returns, returns the argument object
    itself. *)
Definition returns_data (m : M value) : Prop :=
  ∀ w w' v, m w = (w', Ok v) → v = obj w'.

(** Every hand-off along a chain of pipelines passes the guard of the
    pipeline that receives it. *)
Fixpoint handoffs_accepted (rt : runtime) (pipelines : list pipeline) (d : value)
    (out : list string) : Prop :=
  match pipelines with
  | [] => True
  | p :: rest =>
      accepts (kind p) d = true
      ∧ ∀ out' d', process rt p d out = (out', Ok d') →
                   handoffs_accepted rt rest d' out'
  end.

(** The single pipeline that runs, in order, the stages of every pipeline
    of a chain. *)
Definition fused (k : adapter) (id : Z) (pipelines : list pipeline) : pipeline :=
  {| kind := k; pipeline_id := id; stages := concat (stages <$> pipelines) |}.

(** The renderings of [OutputStage]. *)
Definition count_summary (rt : runtime) (size : value) : value :=
  VStr ("Processed temperature reading: " +:+ py_str rt size +:+ " reading processed").

Definition reading_summary (rt : runtime) (v u : value) : value :=
  VStr ("Processed temperature reading: " +:+ py_str rt v +:+ degree
        +:+ py_str rt u +:+ "  (Normal range)").







Definition two_lines : string := "a,b" +:+ String newline "c,d,e".

Definition two_lines_envelope : gmap string value :=
  <[ "payload" := VStr two_lines ]>
    (<[ "type" := VStr "csv" ]> {[ "raw" := VStr two_lines ]}).

Definition braced_text_envelope : gmap string value :=
  <[ "size" := VInt 1 ]>
    (<[ "payload" := VStr "{a:1}" ]>
      (<[ "type" := VStr "json" ]> {[ "raw" := VStr "{a:1}" ]})).

(** ** Notions used to describe what the stages compute *)

(** The items of a sequence that compare equal to [':']: what the
    colon-counting loop counts. *)
Fixpoint colon_items (cs : list value) : nat :=
  match cs with
  | [] => 0%nat
  | i :: rest =>
      if eq_str i (String colon EmptyString) then S (colon_items rest)
      else colon_items rest
  end.

Definition is_ascii_byte (a : ascii) : bool := (nat_of_ascii a <? 128)%nat.

(** No continuation byte directly follows an ASCII byte, so that every
    ASCII byte is a character of its own; this holds of every well-formed
    UTF-8 text. *)
Fixpoint ascii_alone (s : string) : bool :=
  match s with
  | EmptyString => true
  | String a rest =>
      match rest with
      | String b _ => negb (is_ascii_byte a && is_continuation b)
      | EmptyString => true
      end && ascii_alone rest
  end.

(** The standard output of [TransformStage] on each tag. *)
Definition printed_json : list string :=
  ["Transform: "; "Enriched with metadata and validation" +:+ String newline EmptyString].

Definition printed_csv : list string :=
  ["Transform: "; "Parsed and structured data" +:+ String newline EmptyString].

Definition printed_stream : list string :=
  ["Transform: "; "Aggregated and filtered" +:+ String newline EmptyString].

(** A computation whose returned value, when it returns, satisfies [P]. *)
Definition yields (P : value → Prop) (m : M value) : Prop :=
  ∀ w w' v, m w = (w', Ok v) → P v.

(** What [OutputStage] can return: a str, or None when the tag is none
    of the four. *)
Definition rendered (v : value) : Prop :=
  is_str v = true ∨ v = VNone.

(** The three-stage pipeline of the demonstration, for each adapter. *)
Definition full_pipeline (k : adapter) (id : Z) : pipeline :=
  add_stage OutputStage
    (add_stage TransformStage (add_stage InputStage (new_pipeline k id))).

(** A pipeline that classifies and renders without transforming. *)
Definition untransformed_pipeline (k : adapter) (id : Z) : pipeline :=
  add_stage OutputStage (add_stage InputStage (new_pipeline k id)).

Definition action_summary (rt : runtime) (size : value) : value :=
  VStr ("User activity logged: " +:+ py_str rt size +:+ " actions processed").

(** ** LogProcessor (ex0/stream_processor.py) *)

(** [sep.join(l)] for a one-character separator: used to say what
    [split] keeps. *)
Fixpoint str_join (sep : ascii) (l : list string) : string :=
  match l with
  | [] => EmptyString
  | x :: rest =>
      match rest with
      | [] => x
      | _ :: _ => x +:+ String sep (str_join sep rest)
      end
  end.

Module LogProcessor.

(** [alert[i]] on a list. *)
Definition item (alert : value) (i : nat) : result value :=
  match alert with
  | VList l =>
      match l !! i with
      | Some x => Ok x
      | None => Raise IndexError
      end
  | _ => Raise TypeError
  end.

(** [n != 2] for the int that [len] returns. *)
Definition ne2 (n : value) : bool :=
  match n with
  | VInt z => negb (z =? 2)
  | _ => true
  end.

Definition process (rt : runtime) (data : value) : result value :=
  result_bind (split data colon) (λ alert,
  result_bind (item alert 0) (λ head,
  result_bind
    (if eq_str head "ERROR" then Ok "ALERT"
     else result_bind (item alert 0) (λ head,
          if eq_str head "INFO" then Ok "INFO" else Ok "WARN"))
    (λ level,
  result_bind (item alert 0) (λ head,
  result_bind (item alert 1) (λ rest,
  Ok (VStr ("[" +:+ level +:+ "] " +:+ py_str rt head
            +:+ " level detected:" +:+ py_str rt rest))))))).

Definition validate (data : value) : result value :=
  if negb (is_str data) then Ok (VBool false)
  else
    result_bind (split data colon) (λ alert,
    result_bind (len alert) (λ n,
    if ne2 n then Ok (VBool false) else Ok (VBool true))).

Definition format_output (rt : runtime) (r : value) : value :=
  VStr ("Output: " +:+ py_str rt r).

(** The level the processor announces for a given first field. *)
Definition level_of (head : string) : string :=
  if String.eqb head "ERROR" then "ALERT"
  else if String.eqb head "INFO" then "INFO" else "WARN".

End LogProcessor.

(** ** EventStream (ex1/data_stream.py) *)

Module EventStream.

(** An event stream: its id, the batch it holds and its kind.  Events
    are dictionary keys in [get_stats]; the model takes them to be str,
    as the program does. *)
Record stream : Type := Stream {
  id : string;
  data : list string;
  type : string
}.

(** [EventStream(stream_id)]. *)
Definition new (stream_id : string) : stream :=
  {| id := stream_id; data := []; type := "System Events" |}.

(** [self.process_batch(data_batch)]: the stream afterwards and the
    string returned. *)
Definition process_batch (rt : runtime) (self : stream) (data_batch : list string)
  : stream * value :=
  ({| id := id self; data := data_batch; type := type self |},
   VStr (py_str rt (VInt (Z.of_nat (length data_batch))) +:+ " events processed")).

(** Truth value of [count.get(e)]: None and 0 are false. *)
Definition truthy (v : option value) : bool :=
  match v with
  | None => false
  | Some VNone => false
  | Some (VBool b) => b
  | Some (VInt z) => negb (z =? 0)
  | Some (VFloat f) => negb (PrimFloat.eqb f 0%float)
  | Some (VStr s) => negb (String.eqb s EmptyString)
  | Some (VList l) => match l with [] => false | _ => true end
  | Some (VDict d) => negb (bool_decide (size d = 0%nat))
  end.

(** The counting loop of [get_stats]. *)
Fixpoint tally (events : list string) (count : gmap string value)
  : result (gmap string value) :=
  match events with
  | [] => Ok count
  | e :: rest =>
      if truthy (count !! e) then
        result_bind (subscript (VDict count) e) (λ n,
        result_bind (add1 n) (λ n',
        tally rest (<[ e := n' ]> count)))
      else tally rest (<[ e := VInt 1 ]> count)
  end.

Definition get_stats (self : stream) : result value :=
  result_bind (tally (data self) ∅) (λ count,
  Ok (VDict (<[ "count" := VInt (Z.of_nat (length (data self))) ]> count))).

(** [[d for d in data_batch if d == criteria]]. *)
Definition filter_data (data_batch : list string) (criteria : string) : list string :=
  filter (λ d, d = criteria) data_batch.

(** Number of occurrences of an event in a batch. *)
Definition occurrences (e : string) (events : list string) : nat :=
  length (filter (λ d, d = e) events).

End EventStream.

(** Sample inputs for the further properties. *)
Definition two_readings : string := "{a:1,b:2}".

Definition two_readings_envelope : gmap string value :=
  <[ "payload" := VStr two_readings ]>
    (<[ "type" := VStr "json" ]> {[ "raw" := VStr two_readings ]}).

Definition reading_envelope : gmap string value :=
  <[ "type" := VStr "json" ]>
    (<[ "payload" := reading ]> {[ "raw" := reading ]}).

Definition none_envelope : gmap string value :=
  <[ "type" := VStr "json" ]> {[ "payload" := VNone ]}.

(** * Properties *)

(** ** Strings *)

Lemma str_split_length (sep : ascii) (s : string) :
  length (str_split sep s) = S (str_count sep s).
Proof.
  induction s as [|a s IH]; simpl; [done|].
  destruct (Ascii.eqb a sep); simpl; [by rewrite IH|].
  destruct (str_split sep s) as [|f fs]; simpl in *; [done|exact IH].
Qed.

Lemma comprehension_split (sep : ascii) (l : list string) :
  comprehension (λ row, split row sep) (VStr <$> l)
  = Ok ((λ line, VList (VStr <$> str_split sep line)) <$> l).
Proof.
  induction l as [|x l IH]; csimpl; [done|]. by rewrite IH.
Qed.

Lemma some_not_dict_forallb (l : list value) :
  some_not_dict l = negb (forallb is_dict l).
Proof.
  induction l as [|x l IH]; simpl; [done|].
  destruct (is_dict x); simpl; [exact IH|done].
Qed.

(** ** InputStage *)


Lemma call_InputStage_invalid (rt : runtime) (s : string) (out : list string) :
  str_contains comma s = false →
  brace_delimited s = false →
  call rt InputStage (VStr s) out
  = (out ++ ["Input: "],
     Ok (VDict (<[ "type" := VStr "invalid" ]> {[ "raw" := VStr s ]}))).
Proof.
  intros Hc Hb. unfold call, stage_process, InputStage_process.
  cbn -[insert singletonM]. by rewrite Hb, Hc.
Qed.

Lemma call_TransformStage_invalid (rt : runtime) (env : gmap string value)
    (out : list string) :
  env !! "type" = Some (VStr "invalid") →
  call rt TransformStage (VDict env) out = (out ++ ["Transform: "], Raise ValueError).
Proof.
  intros Ht. unfold call, stage_process, TransformStage_process.
  unfold bind, write, data_get, subscript. cbn -[lookup]. by rewrite Ht.
Qed.

(** ** Pipelines *)

Lemma run_stages_app (rt : runtime) (xs ys : list stage) (d : value)
    (out : list string) :
  run_stages rt (xs ++ ys) d out
  = match run_stages rt xs d out with
    | (out', Ok d') => run_stages rt ys d' out'
    | (out', Raise e) => (out', Raise e)
    end.
Proof.
  revert d out. induction xs as [|x xs IH]; intros d out; simpl; [done|].
  destruct (call rt x d out) as [out' [d'|e]]; [apply IH|done].
Qed.

Lemma process_accepted (rt : runtime) (p : pipeline) (d : value) (out : list string) :
  accepts (kind p) d = true →
  process rt p d out = run_stages rt (stages p) d out.
Proof.
  unfold process, accepts. destruct (kind p); intros H.
  - unfold JSONAdapter_process. by rewrite H.
  - unfold CSVAdapter_process. apply andb_true_iff in H as [-> ->]. done.
  - unfold StreamAdapter_process. destruct d; try done.
    simpl. by rewrite some_not_dict_forallb, H.
Qed.

(** C1. A text with no comma that is not brace-delimited passes the guard
    of the structured adapter, is tagged invalid by [InputStage], and
    makes [TransformStage] raise; the exception (the program's
    [ValueError], the design's MalformedInputError) leaves
    [Pipeline.process] uncaught, whatever stages follow. *)
Theorem invalid_text_aborts (rt : runtime) (s : string) (id : Z)
    (rest : list stage) (out : list string) :
  str_contains comma s = false →
  brace_delimited s = false →
  accepts JSONAdapter (VStr s) = true
  ∧ ∃ env,
      call rt InputStage (VStr s) out = (out ++ ["Input: "], Ok (VDict env))
      ∧ env !! "type" = Some (VStr (tag_name Invalid))
      ∧ call rt TransformStage (VDict env) (out ++ ["Input: "])
        = ((out ++ ["Input: "]) ++ ["Transform: "], Raise ValueError)
      ∧ process rt {| kind := JSONAdapter; pipeline_id := id;
                      stages := InputStage :: TransformStage :: rest |}
                (VStr s) out
        = ((out ++ ["Input: "]) ++ ["Transform: "], Raise ValueError).
Proof.
  intros Hc Hb. split; [done|].
  eexists. split; [by apply call_InputStage_invalid|].
  split; [done|].
  split; [by apply call_TransformStage_invalid|].
  rewrite process_accepted by done. simpl.
  rewrite call_InputStage_invalid by done.
  by rewrite call_TransformStage_invalid.
Qed.


(** C9. The text [{a,b}] passes the guard of the delimited adapter, yet
    [InputStage] tags it structured, not delimited: the brace rule is
    tried before the comma rule.  A delimited pipeline that only
    classifies hands back an envelope tagged structured. *)
Theorem delimited_guard_not_delimited_tag (rt : runtime) (out : list string) :
  accepts CSVAdapter (VStr "{a,b}") = true
  ∧ ∃ out' env,
      process rt (add_stage InputStage (new_pipeline CSVAdapter 2)) (VStr "{a,b}") out
      = (out', Ok (VDict env))
      ∧ call rt InputStage (VStr "{a,b}") out = (out', Ok (VDict env))
      ∧ env !! "type" = Some (VStr (tag_name Structured))
      ∧ env !! "type" ≠ Some (VStr (tag_name Delimited)).
Proof.
  split; [done|]. by do 2 eexists.
Qed.

(** C10. With no stage, [Pipeline.process] hands an accepted input back
    unchanged, for each of the three adapters; with no pipeline,
    [NexusManager.process_data] hands any input back unchanged.  Neither
    prints. *)
Theorem empty_composition_identity (rt : runtime) (k : adapter) (id : Z)
    (d : value) (out : list string) :
  accepts k d = true →
  process rt (new_pipeline k id) d out = (out, Ok d)
  ∧ process_data rt [] d out = (out, Ok d).
Proof.
  intros H. split; [|done]. by rewrite process_accepted.
Qed.

(** ** TransformStage *)

Section KeepsType.
Context {A B : Type}.

Lemma keeps_type_ret (a : A) : keeps_type (ret a).
Proof. by intros w. Qed.

Lemma keeps_type_raise (e : exn) : keeps_type (raise (A := A) e).
Proof. by intros w. Qed.

Lemma keeps_type_lift (r : result A) : keeps_type (lift r).
Proof. by intros w. Qed.

Lemma keeps_type_bind (m : M A) (k : A → M B) :
  keeps_type m → (∀ a, keeps_type (k a)) → keeps_type (bind m k).
Proof.
  intros Hm Hk w. unfold bind. specialize (Hm w).
  destruct (m w) as [w' [a|e]]; simpl in *; [|done].
  by rewrite Hk.
Qed.
End KeepsType.

Lemma keeps_type_write (s : string) : keeps_type (write s).
Proof. by intros w. Qed.

Lemma keeps_type_print (s : string) : keeps_type (print s).
Proof. by intros w. Qed.

Lemma keeps_type_data : keeps_type data.
Proof. by intros w. Qed.

Lemma keeps_type_data_get (k : string) : keeps_type (data_get k).
Proof. by intros w. Qed.

Lemma keeps_type_data_set (k : string) (v : value) :
  k ≠ "type" → keeps_type (data_set k v).
Proof.
  intros Hk [o out]. unfold data_set, type_of. simpl.
  destruct o; try done. simpl. by rewrite lookup_insert_ne.
Qed.

Create HintDb keeps discriminated.
#[local] Hint Resolve keeps_type_ret keeps_type_raise keeps_type_lift
  keeps_type_write keeps_type_print keeps_type_data keeps_type_data_get : keeps.

Ltac keeps_type_step :=
  match goal with
  | |- keeps_type (bind _ _) => apply keeps_type_bind; [|intros ?]
  | |- keeps_type (if ?b then _ else _) => destruct b
  | |- keeps_type (data_set _ _) => apply keeps_type_data_set; discriminate
  | |- keeps_type _ => solve [auto with keeps]
  end.

Lemma keeps_type_count_colons (cs : list value) : keeps_type (count_colons cs).
Proof.
  induction cs as [|i cs IH]; simpl; repeat keeps_type_step.
Qed.

Lemma keeps_type_TransformStage : keeps_type TransformStage_process.
Proof.
  unfold TransformStage_process.
  repeat first [apply keeps_type_count_colons | keeps_type_step].
Qed.

Section ReturnsData.
Context {A : Type}.

Lemma returns_data_bind (m : M A) (k : A → M value) :
  (∀ a, returns_data (k a)) → returns_data (bind m k).
Proof.
  intros Hk w w' v. unfold bind.
  destruct (m w) as [w1 [a|e]]; [apply Hk|done].
Qed.
End ReturnsData.

Lemma returns_data_data : returns_data data.
Proof. intros w w' v [= <- <-]. done. Qed.

Lemma returns_data_raise (e : exn) : returns_data (raise e).
Proof. by intros w w' v. Qed.

Ltac returns_data_step :=
  match goal with
  | |- returns_data (bind _ _) => apply returns_data_bind; intros ?
  | |- returns_data (if ?b then _ else _) => destruct b
  | |- returns_data data => apply returns_data_data
  | |- returns_data (raise _) => apply returns_data_raise
  end.

Lemma returns_data_TransformStage : returns_data TransformStage_process.
Proof. unfold TransformStage_process. repeat returns_data_step. Qed.

(** ** OutputStage *)

Section ReadOnly.
Context {A B : Type}.

Lemma read_only_ret (a : A) : read_only (ret a).
Proof. by intros w. Qed.

Lemma read_only_lift (r : result A) : read_only (lift r).
Proof. by intros w. Qed.

Lemma read_only_bind (m : M A) (k : A → M B) :
  read_only m → (∀ a, read_only (k a)) → read_only (bind m k).
Proof.
  intros Hm Hk w. unfold bind. specialize (Hm w).
  destruct (m w) as [w' [a|e]]; simpl in *; subst; [apply Hk|done].
Qed.
End ReadOnly.

Lemma read_only_data_get (k : string) : read_only (data_get k).
Proof. by intros w. Qed.

Ltac read_only_step :=
  match goal with
  | |- read_only (bind _ _) => apply read_only_bind; [|intros ?]
  | |- read_only (if ?b then _ else _) => destruct b
  | |- read_only (match ?l with [] => _ | _ :: _ => _ end) => destruct l
  | |- read_only (ret _) => apply read_only_ret
  | |- read_only (lift _) => apply read_only_lift
  | |- read_only (data_get _) => apply read_only_data_get
  end.

Lemma read_only_OutputStage (rt : runtime) : read_only (OutputStage_process rt).
Proof. unfold OutputStage_process. repeat read_only_step. Qed.

Lemma InputStage_tags (rt : runtime) (raw : value) (out : list string) :
  ∃ out' env,
    InputStage_process rt {| obj := raw; stdout := out |}
    = ({| obj := raw; stdout := out' |}, Ok (VDict env))
    ∧ env !! "type" = Some (VStr (tag_name (classify raw).1)).
Proof.
  destruct raw as [| b | z | f | s | l | d]; unfold InputStage_process, classify;
    cbn -[insert singletonM]; try (by do 2 eexists).
  destruct (brace_delimited s); [|destruct (str_contains comma s)];
    by do 2 eexists.
Qed.

(** C7. The field [type] is put in the envelope by [InputStage], which
    always sets it to one of the four tags, and no later stage changes
    it: after [TransformStage.process] the argument object, and the
    object returned, carry the [type] they had on entry, whether the
    stage returns or raises; [OutputStage.process] changes nothing at
    all. *)
Theorem type_set_once (rt : runtime) (w : world) :
  (∃ out' env t,
     InputStage_process rt w = ({| obj := obj w; stdout := out' |}, Ok (VDict env))
     ∧ env !! "type" = Some (VStr (tag_name t)))
  ∧ type_of (TransformStage_process w).1 = type_of w
  ∧ (∀ v, (TransformStage_process w).2 = Ok v → subscript v "type" = type_of w)
  ∧ (OutputStage_process rt w).1 = w
  ∧ type_of (OutputStage_process rt w).1 = type_of w.
Proof.
  split; [|split; [|split; [|split]]].
  - destruct w as [raw out].
    destruct (InputStage_tags rt raw out) as (out' & env & Hrun & Ht).
    by exists out', env, (classify raw).1.
  - apply keeps_type_TransformStage.
  - intros v Hv. rewrite <- (keeps_type_TransformStage w).
    destruct (TransformStage_process w) as [w' r] eqn:Hrun. simpl in *. subst r.
    by rewrite (returns_data_TransformStage _ _ _ Hrun).
  - apply read_only_OutputStage.
  - by rewrite read_only_OutputStage.
Qed.

(** Symbolic execution of a stage body on a dict whose relevant fields
    are known from hypotheses. *)
Ltac exec :=
  repeat first
    [ match goal with H : _ !! _ = _ |- _ => rewrite H end
    | rewrite lookup_insert_eq
    | rewrite lookup_insert_ne by done
    | progress cbn -[lookup insert csv_rows pretty] ].

Ltac exec_stage :=
  unfold TransformStage_process, OutputStage_process, bind, write, print,
    data_get, data_set, data, lift, ret, raise;
  exec.

(** C6. On an envelope tagged delimited whose payload is a text with N
    line breaks, [TransformStage.process] returns the envelope with a
    payload of exactly N+1 rows, each the comma-split of one line, and
    with [size] set to N+1. *)
Theorem delimited_rows (d : gmap string value) (s : string) (out : list string) :
  d !! "type" = Some (VStr (tag_name Delimited)) →
  d !! "payload" = Some (VStr s) →
  ∃ d' out',
    TransformStage_process {| obj := VDict d; stdout := out |}
    = ({| obj := VDict d'; stdout := out' |}, Ok (VDict d'))
    ∧ d' !! "payload" = Some (VList (csv_rows s))
    ∧ length (csv_rows s) = S (str_count newline s)
    ∧ d' !! "size" = Some (VInt (Z.of_nat (str_count newline s) + 1)).
Proof.
  intros Ht Hp. exec_stage. rewrite comprehension_split. exec.
  assert (length (csv_rows s) = S (str_count newline s)) as Hlen.
  { unfold csv_rows. by rewrite length_fmap, str_split_length. }
  do 2 eexists. split; [reflexivity|]. split; [|split; [exact Hlen|]].
  - by rewrite lookup_insert_ne, lookup_insert_eq.
  - rewrite lookup_insert_eq. do 2 f_equal.
    fold (csv_rows s). rewrite Hlen. lia.
Qed.




(** ** NexusManager *)

Lemma process_data_run_stages (rt : runtime) (pipelines : list pipeline)
    (d : value) (out : list string) :
  handoffs_accepted rt pipelines d out →
  process_data rt pipelines d out
  = run_stages rt (concat (stages <$> pipelines)) d out.
Proof.
  revert d out. induction pipelines as [|p rest IH]; intros d out; [done|].
  intros [Hacc Hrest]. csimpl. rewrite run_stages_app.
  rewrite process_accepted in * by done.
  destruct (run_stages rt (stages p) d out) as [out' [d'|e]]; [|done].
  apply IH, Hrest. done.
Qed.

(** A chain whose hand-offs are all accepted computes what the single
    pipeline running all its stages in order computes. *)
Lemma chain_fused (rt : runtime) (k : adapter) (id : Z) (pipelines : list pipeline)
    (d : value) (out : list string) :
  accepts k d = true →
  handoffs_accepted rt pipelines d out →
  process_data rt pipelines d out = process rt (fused k id pipelines) d out.
Proof.
  intros Hk Hacc. rewrite process_accepted by done.
  by apply process_data_run_stages.
Qed.

Lemma manager_handoffs (rt : runtime) (out : list string) :
  handoffs_accepted rt manager reading out.
Proof.
  split; [done|]. intros out1 d1 [= <- <-].
  split; [done|]. intros out2 d2 [= <- <-].
  split; [done|]. intros out3 d3 _. done.
Qed.

(** C8, as the code has it.  For the temperature reading, the manager
    over the split A (classify, transform), B (transform), C (render)
    returns the same rendered string, and prints the same, as the single
    pipeline that runs the same stages in order; every hand-off passes
    the guard of the pipeline that receives it.  That single pipeline has
    four stages. *)
Theorem chain_equals_fused (rt : runtime) (id : Z) (out : list string) :
  stages (fused JSONAdapter id manager)
  = [InputStage; TransformStage; TransformStage; OutputStage]
  ∧ length (stages (fused JSONAdapter id manager)) = 4%nat
  ∧ handoffs_accepted rt manager reading out
  ∧ process_data rt manager reading out
    = process rt (fused JSONAdapter id manager) reading out
  ∧ (process_data rt manager reading out).2
    = Ok (reading_summary rt (VFloat 23.5%float) (VStr "C")).
Proof.
  split; [done|]. split; [done|].
  split; [apply manager_handoffs|].
  split; [|done].
  apply chain_fused; [done|apply manager_handoffs].
Qed.

(** * Instances *)

(** C8: the stages of A, B and C, taken in order, are four, not five. *)
Lemma fused_chain_not_five_stages :
  length (stages (fused JSONAdapter 6 manager)) = 4%nat
  ∧ length (stages (fused JSONAdapter 6 manager)) ≠ 5%nat.
Proof. split; [reflexivity|discriminate]. Qed.


Lemma invalid_text_aborts_witness :
  str_contains comma "not valid json or csv" = false
  ∧ brace_delimited "not valid json or csv" = false
  ∧ process small_runtime
      {| kind := JSONAdapter; pipeline_id := 1;
         stages := [InputStage; TransformStage; OutputStage] |}
      (VStr "not valid json or csv") []
    = (["Input: "; "Transform: "], Raise ValueError).
Proof.
  split; [reflexivity|]. split; [reflexivity|].
  destruct (invalid_text_aborts small_runtime "not valid json or csv" 1
              [OutputStage] [] eq_refl eq_refl) as [_ [env (_ & _ & _ & H)]].
  exact H.
Defined.


Lemma empty_composition_identity_witness :
  accepts JSONAdapter reading = true
  ∧ process small_runtime (new_pipeline JSONAdapter 1) reading [] = ([], Ok reading)
  ∧ process_data small_runtime [] reading [] = ([], Ok reading).
Proof.
  split; [reflexivity|].
  exact (empty_composition_identity small_runtime JSONAdapter 1 reading [] eq_refl).
Defined.

Lemma delimited_rows_witness :
  two_lines_envelope !! "type" = Some (VStr (tag_name Delimited))
  ∧ two_lines_envelope !! "payload" = Some (VStr two_lines)
  ∧ str_count newline two_lines = 1%nat
  ∧ ∃ d' out',
      TransformStage_process {| obj := VDict two_lines_envelope; stdout := [] |}
      = ({| obj := VDict d'; stdout := out' |}, Ok (VDict d'))
      ∧ d' !! "payload" = Some (VList (csv_rows two_lines))
      ∧ length (csv_rows two_lines) = S (str_count newline two_lines)
      ∧ d' !! "size" = Some (VInt (Z.of_nat (str_count newline two_lines) + 1)).
Proof.
  split; [reflexivity|]. split; [reflexivity|]. split; [reflexivity|].
  exact (delimited_rows two_lines_envelope two_lines [] eq_refl eq_refl).
Defined.



(** ** The scenarios of the program's own demonstration *)

Example delimited_scenario :
  (process small_runtime
     {| kind := CSVAdapter; pipeline_id := 2;
        stages := [InputStage; TransformStage; OutputStage] |}
     (VStr "user,action,timestamp") []).2
  = Ok (VStr "User activity logged: 1 actions processed").
Proof. reflexivity. Qed.

Example recovery_scenario :
  (process small_runtime (add_stage OutputStage pipeline_A)
     (VStr "Hi I am here to break") []).2
  = Raise ValueError.
Proof. reflexivity. Qed.

(** * Further properties of the stages *)

(** ** The colon-counting loop *)

Lemma str_chars_head (b : ascii) (r : string) :
  ∃ x t, str_chars (String b r) = String b x :: t.
Proof.
  revert b. induction r as [|c r IH]; intros b; simpl; [by eauto|].
  destruct (is_continuation c); [|by eauto].
  destruct (IH c) as (x & t & Hx). simpl in Hx. rewrite Hx. by eauto.
Qed.

Lemma colon_is_ascii (a : ascii) :
  Ascii.eqb a colon = true → is_ascii_byte a = true ∧ is_continuation a = false.
Proof. intros ->%Ascii.eqb_eq. done. Qed.

Lemma one_char_eqb (a c : ascii) :
  String.eqb (String a EmptyString) (String c EmptyString) = Ascii.eqb a c.
Proof. simpl. by destruct (Ascii.eqb a c). Qed.

Lemma colon_items_cons (i : value) (cs : list value) :
  colon_items (i :: cs)
  = if eq_str i (String colon EmptyString) then S (colon_items cs)
    else colon_items cs.
Proof. reflexivity. Qed.

Lemma colon_items_chars (s : string) :
  ascii_alone s = true →
  colon_items (VStr <$> str_chars s) = str_count colon s.
Proof.
  induction s as [|a rest IH]; [done|].
  intros [Ha Hrest]%andb_true_iff. specialize (IH Hrest).
  destruct rest as [|b r].
  { simpl. by destruct (Ascii.eqb a colon). }
  destruct (str_chars_head b r) as (x & t & Hx).
  change (str_chars (String a (String b r)))
    with (if is_continuation b
          then match str_chars (String b r) with
               | [] => [String a EmptyString]
               | ch :: chs => String a ch :: chs
               end
          else String a EmptyString :: str_chars (String b r)).
  change (str_count colon (String a (String b r)))
    with (if Ascii.eqb a colon then S (str_count colon (String b r))
          else str_count colon (String b r)).
  rewrite Hx in IH |- *. rewrite fmap_cons, colon_items_cons in IH.
  destruct (is_continuation b) eqn:Hb.
  - rewrite fmap_cons, colon_items_cons.
    destruct (Ascii.eqb a colon) eqn:Hac.
    { apply colon_is_ascii in Hac as [Hasc _]. by rewrite Hasc in Ha. }
    destruct (Ascii.eqb b colon) eqn:Hbc.
    { apply colon_is_ascii in Hbc as [_ Hcont]. congruence. }
    assert (eq_str (VStr (String a (String b x))) (String colon EmptyString) = false)
      as -> by (simpl; by rewrite Hac).
    assert (eq_str (VStr (String b x)) (String colon EmptyString) = false)
      as Hbx by (simpl; by rewrite Hbc).
    by rewrite Hbx in IH.
  - rewrite fmap_cons, colon_items_cons, fmap_cons, colon_items_cons, IH.
    unfold eq_str at 1. by rewrite one_char_eqb.
Qed.

Lemma count_colons_run (d : gmap string value) (n : Z) (cs : list value)
    (out : list string) :
  d !! "size" = Some (VInt n) →
  count_colons cs {| obj := VDict d; stdout := out |}
  = ({| obj := VDict (<[ "size" := VInt (n + Z.of_nat (colon_items cs)) ]> d);
        stdout := out |}, Ok tt).
Proof.
  revert d n. induction cs as [|i cs IH]; intros d n Hs.
  { simpl. rewrite Z.add_0_r, insert_id by done. done. }
  simpl. unfold bind at 1.
  destruct (eq_str i (String colon EmptyString)).
  - unfold bind, data_get, lift, data_set. simpl. rewrite Hs. simpl.
    rewrite (IH _ (n + 1)) by apply lookup_insert_eq.
    rewrite insert_insert_eq. do 5 f_equal. lia.
  - unfold ret. by rewrite (IH _ n).
Qed.

(** ** TransformStage, tag by tag *)

Lemma transform_json_text_run (d : gmap string value) (s : string)
    (out : list string) :
  d !! "type" = Some (VStr "json") →
  d !! "payload" = Some (VStr s) →
  TransformStage_process {| obj := VDict d; stdout := out |}
  = ({| obj := VDict (<[ "size" :=
                         VInt (Z.of_nat (colon_items (VStr <$> str_chars s))) ]> d);
        stdout := out ++ printed_json |},
     Ok (VDict (<[ "size" :=
                   VInt (Z.of_nat (colon_items (VStr <$> str_chars s))) ]> d))).
Proof.
  intros Ht Hp. exec_stage.
  rewrite (count_colons_run _ 0) by apply lookup_insert_eq.
  rewrite insert_insert_eq, <- app_assoc. done.
Qed.

Lemma transform_json_other_run (d : gmap string value) (p : value)
    (out : list string) :
  d !! "type" = Some (VStr "json") →
  d !! "payload" = Some p →
  is_str p = false →
  TransformStage_process {| obj := VDict d; stdout := out |}
  = match len p with
    | Ok n =>
        ({| obj := VDict (<[ "size" := n ]> d); stdout := out ++ printed_json |},
         Ok (VDict (<[ "size" := n ]> d)))
    | Raise e =>
        ({| obj := VDict (<[ "size" := VInt 0 ]> d); stdout := out ++ printed_json |},
         Raise e)
    end.
Proof.
  intros Ht Hp Hs. exec_stage. rewrite Hs. exec.
  destruct (len p) as [n|e]; exec; rewrite <- app_assoc; [|done].
  by rewrite insert_insert_eq.
Qed.

Lemma transform_stream_run (d : gmap string value) (p : value)
    (out : list string) :
  d !! "type" = Some (VStr "stream") →
  d !! "payload" = Some p →
  TransformStage_process {| obj := VDict d; stdout := out |}
  = match len p with
    | Ok n =>
        ({| obj := VDict (<[ "size" := n ]> d); stdout := out ++ printed_stream |},
         Ok (VDict (<[ "size" := n ]> d)))
    | Raise e =>
        ({| obj := VDict d; stdout := out ++ printed_stream |}, Raise e)
    end.
Proof.
  intros Ht Hp. exec_stage.
  destruct (len p) as [n|e]; exec; by rewrite <- app_assoc.
Qed.

Lemma len_fails (p : value) (e : exn) : len p = Raise e → e = TypeError.
Proof. destruct p; simpl; congruence. Qed.

(** X1. On an envelope tagged structured whose payload is still text,
    [TransformStage.process] sets [size] to the number of colons in the
    text and changes nothing else in the envelope. *)
Theorem transform_counts_colons (d : gmap string value) (s : string)
    (out : list string) :
  d !! "type" = Some (VStr "json") →
  d !! "payload" = Some (VStr s) →
  ascii_alone s = true →
  TransformStage_process {| obj := VDict d; stdout := out |}
  = ({| obj := VDict (<[ "size" := VInt (Z.of_nat (str_count colon s)) ]> d);
        stdout := out ++ printed_json |},
     Ok (VDict (<[ "size" := VInt (Z.of_nat (str_count colon s)) ]> d))).
Proof.
  intros Ht Hp Hs. rewrite (transform_json_text_run d s) by done.
  by rewrite colon_items_chars.
Qed.

(** X2. On an envelope tagged structured whose payload is not text but
    has a length (a mapping or a list), [TransformStage.process] sets
    [size] to that length (the number of top-level keys of a mapping)
    and changes nothing else. *)
Theorem transform_sizes_container (d : gmap string value) (p n : value)
    (out : list string) :
  d !! "type" = Some (VStr "json") →
  d !! "payload" = Some p →
  is_str p = false →
  len p = Ok n →
  TransformStage_process {| obj := VDict d; stdout := out |}
  = ({| obj := VDict (<[ "size" := n ]> d); stdout := out ++ printed_json |},
     Ok (VDict (<[ "size" := n ]> d)))
  ∧ (∀ m, p = VDict m → n = VInt (Z.of_nat (size m)))
  ∧ (∀ l, p = VList l → n = VInt (Z.of_nat (length l))).
Proof.
  intros Ht Hp Hs Hn. split.
  - rewrite (transform_json_other_run d p) by done. by rewrite Hn.
  - split; intros ? ->; simpl in Hn; congruence.
Qed.

(** X3. On an envelope tagged structured whose payload has no length
    (None, a bool, a number), [TransformStage.process] raises TypeError,
    and the envelope is left with [size] already reset to 0: the stage
    has mutated its argument before failing. *)
Theorem transform_unsized_payload (d : gmap string value) (p : value)
    (out : list string) :
  d !! "type" = Some (VStr "json") →
  d !! "payload" = Some p →
  is_str p = false →
  is_dict p = false →
  is_list p = false →
  TransformStage_process {| obj := VDict d; stdout := out |}
  = ({| obj := VDict (<[ "size" := VInt 0 ]> d); stdout := out ++ printed_json |},
     Raise TypeError).
Proof.
  intros Ht Hp Hs Hd Hl. rewrite (transform_json_other_run d p) by done.
  by destruct p.
Qed.

(** X4. On envelopes tagged structured or stream, [TransformStage] can be
    applied again without effect on the envelope: if it returns an
    envelope, running it on that envelope returns the same envelope.
    This is what lets pipeline B of a chain transform a second time. *)
Theorem transform_again_same (d d1 : gmap string value) (out out1 out' : list string) :
  d !! "type" = Some (VStr "json") ∨ d !! "type" = Some (VStr "stream") →
  TransformStage_process {| obj := VDict d; stdout := out |}
  = ({| obj := VDict d1; stdout := out1 |}, Ok (VDict d1)) →
  ∃ out2,
    TransformStage_process {| obj := VDict d1; stdout := out' |}
    = ({| obj := VDict d1; stdout := out2 |}, Ok (VDict d1)).
Proof.
  intros Ht Hrun.
  destruct (d !! "payload") as [p|] eqn:Hp; cycle 1.
  { revert Hrun. destruct Ht as [Ht|Ht]; by exec_stage. }
  destruct Ht as [Ht|Ht].
  - destruct (is_str p) eqn:Hs.
    + destruct p as [| | | | s | |]; try done.
      rewrite (transform_json_text_run d s) in Hrun by done.
      injection Hrun as _ _ <-.
      eexists. rewrite (transform_json_text_run _ s) by by rewrite lookup_insert_ne.
      by rewrite insert_insert_eq.
    + rewrite (transform_json_other_run d p) in Hrun by done.
      destruct (len p) as [n|e] eqn:Hn; [|done]. injection Hrun as _ _ <-.
      eexists. rewrite (transform_json_other_run _ p), Hn
        by (done || by rewrite lookup_insert_ne).
      by rewrite insert_insert_eq.
  - rewrite (transform_stream_run d p) in Hrun by done.
    destruct (len p) as [n|e] eqn:Hn; [|done]. injection Hrun as _ _ <-.
    eexists. rewrite (transform_stream_run _ p), Hn by by rewrite lookup_insert_ne.
    by rewrite insert_insert_eq.
Qed.

(** X5. Not so for delimited envelopes: once the payload is no longer
    text (as after a first [TransformStage]) the stage raises
    AttributeError and leaves the envelope as it was, so transforming a
    delimited text twice always fails. *)
Theorem transform_delimited_once (rt : runtime) (d : gmap string value)
    (out : list string) :
  d !! "type" = Some (VStr "csv") →
  (∀ p, d !! "payload" = Some p → is_str p = false →
        TransformStage_process {| obj := VDict d; stdout := out |}
        = ({| obj := VDict d; stdout := out ++ printed_csv |}, Raise AttributeError))
  ∧ (∀ s, d !! "payload" = Some (VStr s) →
          (run_stages rt [TransformStage; TransformStage] (VDict d) out).2
          = Raise AttributeError).
Proof.
  intros Ht. split.
  - intros p Hp Hs. exec_stage. rewrite <- app_assoc. by destruct p.
  - intros s Hp. unfold run_stages, call, stage_process. exec_stage.
    rewrite comprehension_split. by exec.
Qed.

Lemma eq_str_true (v : value) (s : string) : eq_str v s = true → v = VStr s.
Proof.
  destruct v; simpl; try done. by intros ->%String.eqb_eq.
Qed.

(** X6. [TransformStage.process] raises ValueError exactly when the
    envelope is tagged invalid; every other failure of the stage is a
    lookup or type fault. *)
Theorem transform_value_error_iff (w : world) :
  (TransformStage_process w).2 = Raise ValueError
  ↔ type_of w = Ok (VStr "invalid").
Proof.
  destruct w as [o out]. unfold type_of. simpl.
  destruct o as [| b | z | f | s | l | d]; try (by exec_stage).
  destruct (d !! "type") as [t|] eqn:Ht; [|by exec_stage].
  destruct (eq_str t "invalid") eqn:Hinv.
  { apply eq_str_true in Hinv as ->. by exec_stage. }
  assert (t ≠ VStr "invalid") as Hne.
  { intros ->. by simpl in Hinv. }
  split; [|simpl; rewrite Ht; intros [= ->]; done]. intros Hrun. exfalso. revert Hrun.
  destruct (eq_str t "csv") eqn:Hcsv.
  { apply eq_str_true in Hcsv as ->.
    destruct (d !! "payload") as [p|] eqn:Hp; [|by exec_stage].
    destruct p; try (by exec_stage).
    exec_stage. rewrite comprehension_split. by exec. }
  destruct (eq_str t "json") eqn:Hjson.
  { apply eq_str_true in Hjson as ->.
    destruct (d !! "payload") as [p|] eqn:Hp; [|by exec_stage].
    destruct (is_str p) eqn:Hs.
    - destruct p; try done. by rewrite (transform_json_text_run d s).
    - rewrite (transform_json_other_run d p) by done.
      destruct (len p) as [n|e] eqn:Hn; [done|].
      apply len_fails in Hn as ->. done. }
  destruct (eq_str t "stream") eqn:Hstream.
  { apply eq_str_true in Hstream as ->.
    destruct (d !! "payload") as [p|] eqn:Hp; [|by exec_stage].
    rewrite (transform_stream_run d p) by done.
    destruct (len p) as [n|e] eqn:Hn; [done|].
    apply len_fails in Hn as ->. done. }
  exec_stage. rewrite Hinv. exec. rewrite Hcsv. exec. rewrite Hjson. exec.
  by rewrite Hstream.
Qed.

Lemma stages_need_mapping_aux (rt : runtime) (d : value) (out : list string) :
  is_dict d = false →
  TransformStage_process {| obj := d; stdout := out |}
  = ({| obj := d; stdout := out ++ ["Transform: "] |}, Raise TypeError)
  ∧ OutputStage_process rt {| obj := d; stdout := out |}
    = ({| obj := d; stdout := out |}, Raise TypeError).
Proof.
  intros Hd. by destruct d.
Qed.

(** X7. [TransformStage] and [OutputStage] only work on a mapping: given
    anything else (a rendered string, a rejection string, a list, None)
    they raise TypeError and leave their argument alone; [TransformStage]
    has printed its banner by then, [OutputStage] nothing. *)
Theorem stages_need_mapping (rt : runtime) (d : value) (out : list string) :
  is_dict d = false →
  TransformStage_process {| obj := d; stdout := out |}
  = ({| obj := d; stdout := out ++ ["Transform: "] |}, Raise TypeError)
  ∧ OutputStage_process rt {| obj := d; stdout := out |}
    = ({| obj := d; stdout := out |}, Raise TypeError).
Proof.
  apply stages_need_mapping_aux.
Qed.

(** ** OutputStage *)

Section Yields.
Context (P : value → Prop) {A : Type}.

Lemma yields_bind (m : M A) (k : A → M value) :
  (∀ a, yields P (k a)) → yields P (bind m k).
Proof.
  intros Hk w w' v. unfold bind.
  destruct (m w) as [w1 [a|e]]; [apply Hk|done].
Qed.

Lemma yields_ret (v : value) : P v → yields P (ret v).
Proof. intros Hv w w' v' [= _ <-]. done. Qed.
End Yields.

Ltac yields_step :=
  match goal with
  | |- yields _ (bind _ _) => apply yields_bind; intros ?
  | |- yields _ (if ?b then _ else _) => destruct b
  | |- yields _ (match ?l with [] => _ | _ :: _ => _ end) => destruct l
  | |- yields _ (ret _) => apply yields_ret
  end.

Lemma OutputStage_yields_rendered (rt : runtime) :
  yields rendered (OutputStage_process rt).
Proof.
  unfold OutputStage_process. repeat yields_step; (by left) || by right.
Qed.

(** X8. What [OutputStage.process] returns is a str (or None for an
    unknown tag), never an envelope; so a [TransformStage] or a second
    [OutputStage] placed after it raises TypeError. *)
Theorem render_is_final (rt : runtime) (d v : value) (out out1 : list string) :
  call rt OutputStage d out = (out1, Ok v) →
  rendered v
  ∧ out1 = out
  ∧ call rt TransformStage v out1 = (out1 ++ ["Transform: "], Raise TypeError)
  ∧ call rt OutputStage v out1 = (out1, Raise TypeError).
Proof.
  unfold call at 1. simpl.
  pose proof (read_only_OutputStage rt {| obj := d; stdout := out |}) as Hro.
  destruct (OutputStage_process rt {| obj := d; stdout := out |}) as [w r] eqn:Hrun.
  simpl in Hro. subst w. intros [= <- ->].
  apply OutputStage_yields_rendered in Hrun.
  split; [done|]. split; [done|].
  assert (is_dict v = false) as Hd.
  { destruct Hrun as [Hs| ->]; [by destruct v|done]. }
  unfold call, stage_process.
  destruct (stages_need_mapping_aux rt v out Hd) as [-> ->]. done.
Qed.

(** ** Whole pipelines *)

Ltac exec_pipeline :=
  unfold process, full_pipeline, untransformed_pipeline, add_stage, new_pipeline,
    JSONAdapter_process, CSVAdapter_process, StreamAdapter_process;
  cbn [kind stages app is_str is_dict is_list has_comma items negb orb andb];
  unfold run_stages, call, stage_process, InputStage_process.

(** X9. The delimited pipeline (classify, transform, render) on a text
    with a comma that is not brace-delimited reports one action per
    line: the number of line breaks plus one. *)
Theorem delimited_pipeline_counts_lines (rt : runtime) (id : Z) (s : string)
    (out : list string) :
  str_contains comma s = true →
  brace_delimited s = false →
  (process rt (full_pipeline CSVAdapter id) (VStr s) out).2
  = Ok (action_summary rt (VInt (Z.of_nat (str_count newline s) + 1))).
Proof.
  intros Hc Hb. exec_pipeline. rewrite Hc. cbn [negb braced has_comma is_str andb].
  exec_stage. rewrite Hb, Hc. exec.
  rewrite comprehension_split. exec.
  rewrite length_fmap, str_split_length.
  unfold action_summary. cbn [py_str]. by rewrite Nat2Z.inj_succ.
Qed.

(** X10. The structured pipeline on a mapping that has [value] and
    [unit] returns the single-reading summary quoting both, whatever
    other keys the mapping has. *)
Theorem structured_pipeline_reading (rt : runtime) (id : Z)
    (m : gmap string value) (v u : value) (out : list string) :
  m !! "value" = Some v →
  m !! "unit" = Some u →
  (process rt (full_pipeline JSONAdapter id) (VDict m) out).2
  = Ok (reading_summary rt v u).
Proof.
  intros Hv Hu. exec_pipeline. by exec_stage.
Qed.

(** X11. The structured pipeline on a brace-delimited text does not
    parse it: it reports the number of colons in the text as the number
    of readings. *)
Theorem structured_pipeline_text (rt : runtime) (id : Z) (s : string)
    (out : list string) :
  brace_delimited s = true →
  ascii_alone s = true →
  (process rt (full_pipeline JSONAdapter id) (VStr s) out).2
  = Ok (count_summary rt (VInt (Z.of_nat (str_count colon s)))).
Proof.
  intros Hb Hs. exec_pipeline. exec_stage. rewrite Hb. exec.
  rewrite (count_colons_run _ 0) by apply lookup_insert_eq. exec.
  by rewrite colon_items_chars.
Qed.




(** X13. Without [TransformStage] between them, [OutputStage] after
    [InputStage] finds no [size]: it returns a string only for an input
    tagged invalid (the fixed message) and for a mapping with [value]
    and [unit]; a brace-delimited text, a delimited text, a mapping
    lacking one of the keys and every list make it raise. *)
Theorem render_without_transform (rt : runtime) (d : value) (out : list string) :
  let r := (run_stages rt [InputStage; OutputStage] d out).2 in
  ((classify d).1 = Invalid → r = Ok (VStr "Invalid type"))
  ∧ (∀ m v u, d = VDict m → m !! "value" = Some v → m !! "unit" = Some u →
              r = Ok (reading_summary rt v u))
  ∧ (∀ m, d = VDict m → m !! "value" = None ∨ m !! "unit" = None →
          r = Raise KeyError)
  ∧ (is_str d = true → (classify d).1 ≠ Invalid → r = Raise KeyError)
  ∧ (is_list d = true → r = Raise KeyError ∨ r = Raise TypeError).
Proof.
  unfold run_stages, call, stage_process, InputStage_process.
  split; [|split; [|split; [|split]]].
  - destruct d as [| b | z | f | s | l | m]; try done; try (by exec_stage).
    simpl. destruct (brace_delimited s) eqn:Hb; [done|].
    destruct (str_contains comma s) eqn:Hc; [done|].
    intros _. exec_stage. rewrite Hb. unfold has_comma. rewrite Hc. by exec.
  - intros m v u -> Hv Hu. by exec_stage.
  - intros m -> [Hv|Hu]; exec_stage; [done|]. by destruct (m !! "value").
  - destruct d as [| | | | s | |]; try done. intros _. simpl.
    destruct (brace_delimited s) eqn:Hb.
    { intros _. exec_stage. rewrite Hb. by exec. }
    destruct (str_contains comma s) eqn:Hc; [|done].
    intros _. exec_stage. rewrite Hb. unfold has_comma. rewrite Hc. by exec.
  - destruct d as [| | | | | l |]; try done. intros _. exec_stage.
    destruct (comprehension (λ i, subscript i "value") l) as [temps|e] eqn:Hc.
    + left. exec. by destruct temps.
    + exec. clear -Hc. revert e Hc.
      induction l as [|x l IH]; intros e; simpl; [done|].
      destruct (subscript x "value") as [y|e'] eqn:Hx; simpl.
      * destruct (comprehension _ l) as [ys|e'']; simpl; [done|].
        intros [= <-]. by apply IH.
      * intros [= <-]. destruct x as [| | | | | |m]; simpl in Hx;
          try (injection Hx as <-; by right).
        destruct (m !! "value"); [done|]. injection Hx as <-. by left.
Qed.

(** ** Composition *)

Lemma process_not_accepted (rt : runtime) (p : pipeline) (d : value)
    (out : list string) :
  accepts (kind p) d = false →
  process rt p d out = (out, Ok (rejection rt (kind p) d)).
Proof.
  unfold process, accepts, rejection. destruct (kind p); intros H.
  - unfold JSONAdapter_process. by rewrite H.
  - unfold CSVAdapter_process.
    destruct (is_str d); simpl in *; [by rewrite H|done].
  - unfold StreamAdapter_process. destruct d; try done.
    simpl. by rewrite some_not_dict_forallb, H.
Qed.

Lemma process_data_app (rt : runtime) (ps qs : list pipeline) (d : value)
    (out : list string) :
  process_data rt (ps ++ qs) d out
  = match process_data rt ps d out with
    | (out', Ok d') => process_data rt qs d' out'
    | (out', Raise e) => (out', Raise e)
    end.
Proof.
  revert d out. induction ps as [|p ps IH]; intros d out; simpl; [done|].
  destruct (process rt p d out) as [out' [d'|e]]; [apply IH|done].
Qed.

(** X14. The manager does not look at what a pipeline returns: when the
    first pipeline of a chain rejects the input, its rejection string is
    fed to the rest of the chain as ordinary data, and nothing has been
    printed. *)
Theorem rejection_is_passed_on (rt : runtime) (p : pipeline)
    (rest : list pipeline) (d : value) (out : list string) :
  accepts (kind p) d = false →
  process_data rt (p :: rest) d out
  = process_data rt rest (rejection rt (kind p) d) out
  ∧ is_str (rejection rt (kind p) d) = true.
Proof.
  intros H. split; [|done]. simpl. by rewrite process_not_accepted.
Qed.

(** X15. Adding a pipeline to the manager post-composes it: the new
    pipeline receives what the chain so far returns, and is not run when
    the chain so far raises. *)
Theorem add_pipeline_composes (rt : runtime) (p : pipeline)
    (pipelines : list pipeline) (d : value) (out : list string) :
  process_data rt (add_pipeline p pipelines) d out
  = match process_data rt pipelines d out with
    | (out', Ok d') => process rt p d' out'
    | (out', Raise e) => (out', Raise e)
    end.
Proof.
  unfold add_pipeline. rewrite process_data_app.
  destruct (process_data rt pipelines d out) as [out' [d'|e]]; [|done].
  simpl. by destruct (process rt p d' out') as [out2 [d2|e]].
Qed.

(** X16. Adding a stage to a pipeline post-composes it on every input
    the pipeline accepts: the new stage receives what the stages so far
    return, and is not run when one of them raises.  (On a rejected
    input the new stage is not run at all.) *)
Theorem add_stage_composes (rt : runtime) (s : stage) (p : pipeline) (d : value)
    (out : list string) :
  accepts (kind p) d = true →
  process rt (add_stage s p) d out
  = match process rt p d out with
    | (out', Ok d') => call rt s d' out'
    | (out', Raise e) => (out', Raise e)
    end.
Proof.
  intros H. rewrite !process_accepted by done.
  unfold add_stage. cbn [stages]. rewrite run_stages_app.
  destruct (run_stages rt (stages p) d out) as [out' [d'|e]]; [|done].
  simpl. by destruct (call rt s d' out') as [out2 [d2|e]].
Qed.

(** X17. Splitting is transparent: for any chain of pipelines in which
    every hand-off passes the guard of the pipeline that receives it,
    the manager returns and prints what a single pipeline running all
    their stages in order returns and prints. *)
Theorem manager_is_fused_pipeline (rt : runtime) (k : adapter) (id : Z)
    (pipelines : list pipeline) (d : value) (out : list string) :
  accepts k d = true →
  handoffs_accepted rt pipelines d out →
  process_data rt pipelines d out = process rt (fused k id pipelines) d out
  ∧ stages (fused k id pipelines) = concat (stages <$> pipelines).
Proof.
  intros Hk Hacc. split; [by apply chain_fused|done].
Qed.

(** ** Guards *)


(** X19. Whatever a delimited or a stream pipeline accepts, classifying
    and transforming it succeeds: the envelope returned is tagged
    delimited or structured (delimited pipeline) or stream (stream
    pipeline), never invalid, and carries a [size]. *)
Theorem accepted_is_transformed (rt : runtime) (k : adapter) (id : Z) (d : value)
    (out : list string) :
  k = CSVAdapter ∨ k = StreamAdapter →
  accepts k d = true →
  ∃ out' env t n,
    process rt (add_stage TransformStage (add_stage InputStage (new_pipeline k id)))
      d out
    = (out', Ok (VDict env))
    ∧ env !! "type" = Some (VStr (tag_name t))
    ∧ t ≠ Invalid
    ∧ env !! "size" = Some (VInt n).
Proof.
  intros [-> | ->] Hacc.
  - destruct d as [| | | | s | |]; try done. simpl in Hacc.
    exec_pipeline. rewrite Hacc. cbn [negb].
    destruct (brace_delimited s) eqn:Hb.
    + exec_stage. rewrite Hb. exec.
      rewrite (count_colons_run _ 0) by apply lookup_insert_eq. exec.
      eexists _, _, Structured, _. split; [reflexivity|].
      rewrite insert_insert_eq.
      split; [by rewrite lookup_insert_ne, lookup_insert_ne, lookup_insert_eq|].
      split; [done|]. by rewrite lookup_insert_eq.
    + exec_stage. rewrite Hb. unfold has_comma. rewrite Hacc. exec.
      rewrite comprehension_split. exec.
      eexists _, _, Delimited, _. split; [reflexivity|].
      split; [by rewrite !lookup_insert_ne, lookup_insert_eq by done|].
      split; [done|]. by rewrite lookup_insert_eq.
  - destruct d as [| | | | | l |]; try done. simpl in Hacc.
    exec_pipeline. rewrite some_not_dict_forallb, Hacc. cbn [negb].
    exec_stage.
    eexists _, _, Stream, _. split; [reflexivity|].
    split; [by rewrite lookup_insert_ne, lookup_insert_eq|].
    split; [done|]. by rewrite lookup_insert_eq.
Qed.

(** ** Tags outside the four *)

(** X20. An envelope whose [type] is none of the four tags goes through
    unnoticed: [TransformStage] returns it unchanged after printing its
    banner, and [OutputStage] returns None rather than a string.  An
    envelope with no [type] at all makes both stages raise KeyError. *)
Theorem unknown_tag_passes (rt : runtime) (d : gmap string value)
    (out : list string) :
  let w := {| obj := VDict d; stdout := out |} in
  (∀ t, d !! "type" = Some t →
        eq_str t "invalid" = false → eq_str t "csv" = false →
        eq_str t "json" = false → eq_str t "stream" = false →
        TransformStage_process w
        = ({| obj := VDict d; stdout := out ++ ["Transform: "] |}, Ok (VDict d))
        ∧ OutputStage_process rt w = (w, Ok VNone))
  ∧ (d !! "type" = None →
     TransformStage_process w
     = ({| obj := VDict d; stdout := out ++ ["Transform: "] |}, Raise KeyError)
     ∧ OutputStage_process rt w = (w, Raise KeyError)).
Proof.
  split.
  - intros t Ht H1 H2 H3 H4. split; exec_stage;
      repeat (first [rewrite H1 | rewrite H2 | rewrite H3 | rewrite H4]; exec);
      done.
  - intros Ht. split; by exec_stage.
Qed.

(** * LogProcessor *)

Lemma str_split_nonempty (sep : ascii) (s : string) : str_split sep s ≠ [].
Proof.
  intros H. pose proof (str_split_length sep s) as Hl. by rewrite H in Hl.
Qed.

Lemma str_join_split (sep : ascii) (s : string) :
  str_join sep (str_split sep s) = s.
Proof.
  induction s as [|a s IH]; [done|]. simpl.
  destruct (Ascii.eqb_spec a sep) as [->|Hne].
  - destruct (str_split sep s) as [|f fs] eqn:Hs; [by apply str_split_nonempty in Hs|].
    simpl in *. by rewrite IH.
  - destruct (str_split sep s) as [|f fs] eqn:Hs; [by apply str_split_nonempty in Hs|].
    simpl in *. destruct fs; simpl in *; by rewrite <- IH.
Qed.

Lemma str_split_fields (sep : ascii) (s : string) :
  Forall (λ f, str_contains sep f = false) (str_split sep s).
Proof.
  induction s as [|a s IH]; simpl; [by repeat constructor|].
  destruct (Ascii.eqb a sep) eqn:Ha; [by constructor|].
  destruct (str_split sep s) as [|f fs]; [by repeat constructor; simpl; rewrite Ha|].
  inversion IH; subst. constructor; [|done]. simpl. by rewrite Ha.
Qed.

Lemma str_contains_count (sep : ascii) (s : string) :
  str_contains sep s = negb (str_count sep s =? 0)%nat.
Proof.
  induction s as [|a s IH]; simpl; [done|]. by destruct (Ascii.eqb a sep).
Qed.

Lemma log_process_run (rt : runtime) (s : string) :
  LogProcessor.process rt (VStr s)
  = match str_split colon s with
    | h :: t :: _ =>
        Ok (VStr ("[" +:+ LogProcessor.level_of h +:+ "] " +:+ h
                  +:+ " level detected:" +:+ t))
    | _ => Raise IndexError
    end.
Proof.
  unfold LogProcessor.process, LogProcessor.level_of. simpl.
  destruct (str_split colon s) as [|h [|t rest]]; simpl; [done| |].
  - by destruct (String.eqb h "ERROR"), (String.eqb h "INFO").
  - by destruct (String.eqb h "ERROR"), (String.eqb h "INFO").
Qed.

Lemma log_validate_one_colon_aux (s : string) :
  LogProcessor.validate (VStr s) = Ok (VBool (str_count colon s =? 1)%nat).
Proof.
  unfold LogProcessor.validate. simpl.
  rewrite length_fmap, str_split_length.
  destruct (str_count colon s) as [|[|n]]; try done.
  unfold LogProcessor.ne2.
  replace (Z.of_nat (S (S (S n))) =? 2) with false; [done|].
  symmetry. apply Z.eqb_neq. lia.
Qed.

(** X21. [LogProcessor.validate] never raises, and answers True exactly
    for a text that contains one colon, no more and no fewer. *)
Theorem log_validate_one_colon (d : value) :
  LogProcessor.validate d
  = Ok (VBool (match d with
               | VStr s => (str_count colon s =? 1)%nat
               | _ => false
               end)).
Proof.
  destruct d as [| | | | s | |]; try done. apply log_validate_one_colon_aux.
Qed.

(** X22. [LogProcessor.process] does not validate: on a value that is
    not text it raises AttributeError, on a text without a colon it
    raises IndexError, and on a text with at least one colon it returns
    the announcement built from the first two fields, silently dropping
    whatever follows a second colon. *)
Theorem log_process_outcome (rt : runtime) (d : value) :
  (is_str d = false → LogProcessor.process rt d = Raise AttributeError)
  ∧ (∀ s, d = VStr s → str_contains colon s = false →
          LogProcessor.process rt d = Raise IndexError)
  ∧ (∀ s, d = VStr s → str_contains colon s = true →
          ∃ h t rest,
            str_split colon s = h :: t :: rest
            ∧ LogProcessor.process rt d
              = Ok (VStr ("[" +:+ LogProcessor.level_of h +:+ "] " +:+ h
                          +:+ " level detected:" +:+ t))).
Proof.
  split; [|split].
  - by destruct d.
  - intros s -> Hc. rewrite log_process_run.
    rewrite str_contains_count in Hc.
    pose proof (str_split_length colon s) as Hl.
    destruct (str_count colon s); [|done].
    by destruct (str_split colon s) as [|h [|t rest]].
  - intros s -> Hc. rewrite log_process_run.
    rewrite str_contains_count in Hc.
    pose proof (str_split_length colon s) as Hl.
    destruct (str_count colon s); [done|].
    destruct (str_split colon s) as [|h [|t rest]]; [done..|]. by eauto.
Qed.

(** X23. A text that [LogProcessor.validate] approves is [head:tail]
    with no colon in either part; [process] then returns the
    announcement quoting [head] and [tail] in full, with level ALERT for
    the head ERROR, INFO for INFO and WARN otherwise. *)
Theorem log_validated_round_trip (rt : runtime) (s : string) :
  LogProcessor.validate (VStr s) = Ok (VBool true) →
  ∃ h t,
    s = h +:+ String colon t
    ∧ str_contains colon h = false
    ∧ str_contains colon t = false
    ∧ LogProcessor.process rt (VStr s)
      = Ok (VStr ("[" +:+ LogProcessor.level_of h +:+ "] " +:+ h
                  +:+ " level detected:" +:+ t)).
Proof.
  rewrite log_validate_one_colon_aux. intros [= Hc%Nat.eqb_eq].
  pose proof (str_split_length colon s) as Hl. rewrite Hc in Hl.
  pose proof (str_join_split colon s) as Hj.
  pose proof (str_split_fields colon s) as Hf.
  rewrite log_process_run.
  destruct (str_split colon s) as [|h [|t [|x rest]]]; try done.
  exists h, t. simpl in Hj.
  apply Forall_cons in Hf as [Hh Hf]. apply Forall_cons in Hf as [Ht _].
  done.
Qed.

(** * EventStream *)

Lemma occurrences_cons (e e0 : string) (events : list string) :
  EventStream.occurrences e (e0 :: events)
  = ((if decide (e0 = e) then 1 else 0) + EventStream.occurrences e events)%nat.
Proof.
  unfold EventStream.occurrences. rewrite filter_cons.
  by destruct (decide (e0 = e)).
Qed.

Lemma tally_counts (events : list string) (count : gmap string value)
    (f : string → nat) :
  (∀ e, count !! e = match f e with
                     | O => None
                     | S _ => Some (VInt (Z.of_nat (f e)))
                     end) →
  ∃ count',
    EventStream.tally events count = Ok count'
    ∧ ∀ e, count' !! e
           = match (f e + EventStream.occurrences e events)%nat with
             | O => None
             | S n => Some (VInt (Z.of_nat (S n)))
             end.
Proof.
  revert count f. induction events as [|e0 events IH]; intros count f Hinv.
  { exists count. split; [done|]. intros e. rewrite Hinv.
    unfold EventStream.occurrences. simpl. rewrite Nat.add_0_r.
    by destruct (f e). }
  simpl. pose proof (Hinv e0) as H0.
  destruct (f e0) as [|n] eqn:Hf0; rewrite H0; simpl.
  - destruct (IH (<[ e0 := VInt 1 ]> count) (λ e, if decide (e0 = e) then 1%nat else f e))
      as (c' & Hrun & Hc').
    { intros e. rewrite lookup_insert. destruct (decide (e0 = e)); [done|apply Hinv]. }
    exists c'. split; [done|]. intros e. rewrite Hc', occurrences_cons.
    destruct (decide (e0 = e)) as [<-|]; [by rewrite Hf0|done].
  - replace (Z.pos (Pos.of_succ_nat n) =? 0) with false by done. simpl.
    destruct (IH (<[ e0 := VInt (Z.of_nat (S n) + 1) ]> count)
                 (λ e, if decide (e0 = e) then S (S n) else f e))
      as (c' & Hrun & Hc').
    { intros e. rewrite lookup_insert. destruct (decide (e0 = e)); [|apply Hinv].
      do 2 f_equal. lia. }
    exists c'. split; [done|]. intros e. rewrite Hc', occurrences_cons.
    destruct (decide (e0 = e)) as [<-|]; [|done].
    rewrite Hf0. by rewrite <- !Nat.add_succ_comm.
Qed.

(** X24. After [process_batch], [EventStream.get_stats] returns a
    mapping whose [count] is the size of that batch (earlier batches are
    replaced, not accumulated) and which gives, for every event other
    than the text [count], the number of times it occurs in the batch,
    with no entry for an event that does not occur.  An event that is
    itself called [count] has its tally overwritten by the total. *)
Theorem event_stats_tally (rt : runtime) (self : EventStream.stream)
    (batch : list string) :
  ∃ stats,
    EventStream.get_stats (EventStream.process_batch rt self batch).1
    = Ok (VDict stats)
    ∧ stats !! "count" = Some (VInt (Z.of_nat (length batch)))
    ∧ ∀ e, e ≠ "count" →
           stats !! e
           = match EventStream.occurrences e batch with
             | O => None
             | S n => Some (VInt (Z.of_nat (S n)))
             end.
Proof.
  unfold EventStream.get_stats, EventStream.process_batch. simpl.
  destruct (tally_counts batch ∅ (λ _, O)) as (c & Hrun & Hc); [done|].
  rewrite Hrun. simpl. eexists. split; [reflexivity|].
  split; [by rewrite lookup_insert_eq|].
  intros e He. rewrite lookup_insert_ne by done. by rewrite Hc.
Qed.

(** * Instances of the further properties *)

Lemma transform_counts_colons_witness :
  two_readings_envelope !! "type" = Some (VStr "json")
  ∧ two_readings_envelope !! "payload" = Some (VStr two_readings)
  ∧ ascii_alone two_readings = true
  ∧ str_count colon two_readings = 2%nat
  ∧ (TransformStage_process {| obj := VDict two_readings_envelope; stdout := [] |}).2
    = Ok (VDict (<[ "size" := VInt 2 ]> two_readings_envelope)).
Proof.
  split; [reflexivity|]. split; [reflexivity|]. split; [reflexivity|].
  split; [reflexivity|].
  exact (f_equal snd (transform_counts_colons two_readings_envelope two_readings []
                        eq_refl eq_refl eq_refl)).
Defined.

Lemma transform_sizes_container_witness :
  reading_envelope !! "type" = Some (VStr "json")
  ∧ reading_envelope !! "payload" = Some reading
  ∧ is_str reading = false
  ∧ len reading = Ok (VInt 3)
  ∧ (TransformStage_process {| obj := VDict reading_envelope; stdout := [] |}).2
    = Ok (VDict (<[ "size" := VInt 3 ]> reading_envelope)).
Proof.
  split; [reflexivity|]. split; [reflexivity|]. split; [reflexivity|].
  split; [reflexivity|].
  exact (f_equal snd (proj1 (transform_sizes_container reading_envelope reading
                               (VInt 3) [] eq_refl eq_refl eq_refl eq_refl))).
Defined.

Lemma transform_unsized_payload_witness :
  none_envelope !! "type" = Some (VStr "json")
  ∧ none_envelope !! "payload" = Some VNone
  ∧ TransformStage_process {| obj := VDict none_envelope; stdout := [] |}
    = ({| obj := VDict (<[ "size" := VInt 0 ]> none_envelope);
          stdout := printed_json |}, Raise TypeError).
Proof.
  split; [reflexivity|]. split; [reflexivity|].
  exact (transform_unsized_payload none_envelope VNone []
           eq_refl eq_refl eq_refl eq_refl eq_refl).
Defined.

Lemma transform_again_same_witness :
  reading_envelope !! "type" = Some (VStr "json")
  ∧ TransformStage_process {| obj := VDict reading_envelope; stdout := [] |}
    = ({| obj := VDict (<[ "size" := VInt 3 ]> reading_envelope);
          stdout := printed_json |},
       Ok (VDict (<[ "size" := VInt 3 ]> reading_envelope)))
  ∧ ∃ out2,
      TransformStage_process
        {| obj := VDict (<[ "size" := VInt 3 ]> reading_envelope);
           stdout := printed_json |}
      = ({| obj := VDict (<[ "size" := VInt 3 ]> reading_envelope);
            stdout := out2 |},
         Ok (VDict (<[ "size" := VInt 3 ]> reading_envelope))).
Proof.
  split; [reflexivity|]. split; [reflexivity|].
  exact (transform_again_same reading_envelope
           (<[ "size" := VInt 3 ]> reading_envelope) [] printed_json printed_json
           (or_introl eq_refl) eq_refl).
Defined.

Lemma transform_delimited_once_witness :
  two_lines_envelope !! "type" = Some (VStr "csv")
  ∧ two_lines_envelope !! "payload" = Some (VStr two_lines)
  ∧ (run_stages small_runtime [TransformStage; TransformStage]
       (VDict two_lines_envelope) []).2
    = Raise AttributeError.
Proof.
  split; [reflexivity|]. split; [reflexivity|].
  exact (proj2 (transform_delimited_once small_runtime two_lines_envelope []
                  eq_refl) two_lines eq_refl).
Defined.

Lemma stages_need_mapping_witness :
  is_dict (VStr "Invalid type") = false
  ∧ TransformStage_process {| obj := VStr "Invalid type"; stdout := [] |}
    = ({| obj := VStr "Invalid type"; stdout := ["Transform: "] |}, Raise TypeError)
  ∧ OutputStage_process small_runtime {| obj := VStr "Invalid type"; stdout := [] |}
    = ({| obj := VStr "Invalid type"; stdout := [] |}, Raise TypeError).
Proof.
  split; [reflexivity|].
  exact (stages_need_mapping small_runtime (VStr "Invalid type") [] eq_refl).
Defined.

Lemma render_is_final_witness :
  call small_runtime OutputStage (VDict braced_text_envelope) []
  = ([], Ok (VStr "Processed temperature reading: 1 reading processed"))
  ∧ call small_runtime OutputStage
      (VStr "Processed temperature reading: 1 reading processed") []
    = ([], Raise TypeError).
Proof.
  split; [reflexivity|].
  exact (proj2 (proj2 (proj2
           (render_is_final small_runtime (VDict braced_text_envelope)
              (VStr "Processed temperature reading: 1 reading processed")
              [] [] eq_refl)))).
Defined.

Lemma delimited_pipeline_counts_lines_witness :
  str_contains comma two_lines = true
  ∧ brace_delimited two_lines = false
  ∧ (process small_runtime (full_pipeline CSVAdapter 2) (VStr two_lines) []).2
    = Ok (VStr "User activity logged: 2 actions processed").
Proof.
  split; [reflexivity|]. split; [reflexivity|].
  exact (delimited_pipeline_counts_lines small_runtime 2 two_lines []
           eq_refl eq_refl).
Defined.

Lemma structured_pipeline_reading_witness :
  subscript reading "value" = Ok (VFloat 23.5%float)
  ∧ subscript reading "unit" = Ok (VStr "C")
  ∧ (process small_runtime (full_pipeline JSONAdapter 1) reading []).2
    = Ok (reading_summary small_runtime (VFloat 23.5%float) (VStr "C")).
Proof.
  split; [reflexivity|]. split; [reflexivity|].
  exact (structured_pipeline_reading small_runtime 1
           (<[ "sensor" := VStr "temp" ]>
              (<[ "value" := VFloat 23.5%float ]> (<[ "unit" := VStr "C" ]> ∅)))
           (VFloat 23.5%float) (VStr "C") [] eq_refl eq_refl).
Defined.

Lemma structured_pipeline_text_witness :
  brace_delimited two_readings = true
  ∧ ascii_alone two_readings = true
  ∧ (process small_runtime (full_pipeline JSONAdapter 1) (VStr two_readings) []).2
    = Ok (VStr "Processed temperature reading: 2 reading processed").
Proof.
  split; [reflexivity|]. split; [reflexivity|].
  exact (structured_pipeline_text small_runtime 1 two_readings [] eq_refl eq_refl).
Defined.


Lemma rejection_is_passed_on_witness :
  accepts CSVAdapter (VStr "no separator") = false
  ∧ process_data small_runtime
      [full_pipeline CSVAdapter 2; new_pipeline JSONAdapter 1] (VStr "no separator") []
    = ([], Ok (VStr "no separator is not a CSV-like format")).
Proof.
  split; [reflexivity|].
  exact (proj1 (rejection_is_passed_on small_runtime (full_pipeline CSVAdapter 2)
                  [new_pipeline JSONAdapter 1] (VStr "no separator") [] eq_refl)).
Defined.

Lemma add_stage_composes_witness :
  accepts (kind pipeline_A) reading = true
  ∧ (process small_runtime (add_stage OutputStage pipeline_A) reading []).2
    = Ok (reading_summary small_runtime (VFloat 23.5%float) (VStr "C")).
Proof.
  split; [reflexivity|].
  exact (f_equal snd (add_stage_composes small_runtime OutputStage pipeline_A reading
                        [] eq_refl)).
Defined.

Lemma manager_is_fused_pipeline_witness :
  accepts JSONAdapter reading = true
  ∧ handoffs_accepted small_runtime manager reading []
  ∧ process_data small_runtime manager reading []
    = process small_runtime (fused JSONAdapter 6 manager) reading [].
Proof.
  assert (handoffs_accepted small_runtime manager reading []) as H.
  { split; [reflexivity|]. intros out1 d1 [= <- <-].
    split; [reflexivity|]. intros out2 d2 [= <- <-].
    split; [reflexivity|]. intros out3 d3 _. exact I. }
  split; [reflexivity|]. split; [exact H|].
  exact (proj1 (manager_is_fused_pipeline small_runtime JSONAdapter 6 manager reading
                  [] eq_refl H)).
Defined.


Lemma accepted_is_transformed_witness :
  accepts CSVAdapter (VStr two_lines) = true
  ∧ ∃ out' env t n,
      process small_runtime
        (add_stage TransformStage (add_stage InputStage (new_pipeline CSVAdapter 2)))
        (VStr two_lines) []
      = (out', Ok (VDict env))
      ∧ env !! "type" = Some (VStr (tag_name t))
      ∧ t ≠ Invalid
      ∧ env !! "size" = Some (VInt n).
Proof.
  split; [reflexivity|].
  exact (accepted_is_transformed small_runtime CSVAdapter 2 (VStr two_lines) []
           (or_introl eq_refl) eq_refl).
Defined.

Lemma log_validated_round_trip_witness :
  LogProcessor.validate (VStr "ERROR: Connection timeout") = Ok (VBool true)
  ∧ ∃ h t,
      "ERROR: Connection timeout" = h +:+ String colon t
      ∧ str_contains colon h = false
      ∧ str_contains colon t = false
      ∧ LogProcessor.process small_runtime (VStr "ERROR: Connection timeout")
        = Ok (VStr ("[" +:+ LogProcessor.level_of h +:+ "] " +:+ h
                    +:+ " level detected:" +:+ t)).
Proof.
  split; [reflexivity|].
  exact (log_validated_round_trip small_runtime "ERROR: Connection timeout" eq_refl).
Defined.

Example log_demo :
  LogProcessor.process small_runtime (VStr "ERROR: Connection timeout")
  = Ok (VStr "[ALERT] ERROR level detected: Connection timeout").
Proof. reflexivity. Qed.
